(** * birthstar: a shallow embedding of [birthstar.py]

    The Python module computes, for a birth date, the star whose light left
    it on that date and reaches Earth now.  This development embeds the
    module function by function and proves the properties its
    specification states about it.

    Modelling choices, all of them fixed here once:
    - a Python [float] is taken twice.  In the first part of the file it is
      the exact rational ([Q]) that it denotes, a float literal being the
      rational it denotes in decimal: this serves the properties that
      rounding cannot change (comparisons with thresholds, signs, strings,
      the table) and those stated for exact arithmetic.  In the module
      [Binary64] it is a primitive binary64 number with the arithmetic of
      IEEE 754, which is what Python and SQLite compute with: this serves
      the properties that depend on how the machine rounds (which record is
      nearest, on which day the light arrives);
    - a Python [str] is a [string] (the bytes of the source file);
    - the dictionary [CONST_ABBREV] is a [gmap string string];
    - an exception is a value of [exn]; a call that may raise returns
      [result A];
    - the wall clock ([datetime.datetime.now()]) is an explicit argument
      [now] of every function that reads it;
    - the stars table behind the SQLite cursor is the list of its rows in
      storage order. *)

From Stdlib Require Import QArith Qround Qabs Qpower ZArith Lia Lqa List Floats.
From stdpp Require Import gmap strings list fin_maps pretty.

Local Open Scope string_scope.
Local Open Scope Z_scope.

(* A float literal of the source stands for the binary64 number nearest to
   it. *)
Set Warnings "-inexact-float".

(** ** Exceptions *)

Inductive exn : Type :=
  | KeyError (key : string)     (* subscript of a dict with a missing key *)
  | TypeError                   (* star-unpacking a value that is not iterable *)
  | OverflowError               (* [datetime]: date value out of range *)
  | ValueError.                 (* a float that is no number, made an integer *)

Inductive result (A : Type) : Type :=
  | Return (a : A)
  | Raise (e : exn).
Arguments Return {A} a.
Arguments Raise {A} e.

Definition bind {A B} (r : result A) (k : A -> result B) : result B :=
  match r with
  | Return a => k a
  | Raise e => Raise e
  end.

Notation "'let*' x ':=' r 'in' k" := (bind r (fun x => k))
  (at level 10, x name, r at level 100, k at level 200).

(** ** Module constants *)

(* Number of seconds in 365.25 days (1 Julian year). *)
Definition SECS_IN_YEAR : Z := 31557600.

Definition LIGHT_YEARS_IN_1_PARSEC : Q := 326163344 # 100000000.

(** A dict display evaluates its items left to right and a later item
    overwrites an earlier one with the same key. *)
Definition dict_display (items : list (string * string)) : gmap string string :=
  foldl (fun d kv => <[kv.1 := kv.2]> d) ∅ items.

Definition CONST_ABBREV_items : list (string * string) :=
  [("And", "Andromeda"); ("Ant", "Antlia"); ("Aps", "Apus");
   ("Aqr", "Aquarius"); ("Aql", "Aquila"); ("Ara", "Ara"); ("Ari", "Aries");
   ("Aur", "Auriga"); ("Boo", "Bo√∂tes"); ("Cae", "Caelum");
   ("Cam", "Camelopardalis"); ("Cnc", "Cancer"); ("CVn", "Canes Venatici");
   ("CMa", "Canis Major"); ("CMi", "Canis Minor"); ("Cap", "Capricornus");
   ("Car", "Carina"); ("Cas", "Cassiopeia"); ("Cen", "Centaurus");
   ("Cep", "Cepheus"); ("Cet", "Cetus"); ("Cha", "Chamaeleon");
   ("Cir", "Circinus"); ("Col", "Columba"); ("Com", "Coma Berenices");
   ("CrA", "Corona Australis"); ("CrB", "Corona Borealis"); ("Crv", "Corvus");
   ("Crt", "Crater"); ("Cru", "Crux"); ("Cyg", "Cygnus"); ("Del", "Delphinus");
   ("Dor", "Dorado"); ("Dra", "Draco"); ("Equ", "Equuleus");
   ("Eri", "Eridanus"); ("For", "Fornax"); ("Gem", "Gemini"); ("Gru", "Grus");
   ("Her", "Hercules"); ("Hor", "Horologium"); ("Hya", "Hydra");
   ("Hyi", "Hydrus"); ("Ind", "Indus"); ("Lac", "Lacerta"); ("Leo", "Leo");
   ("LMi", "Leo Minor"); ("Lep", "Lepus"); ("Lib", "Libra"); ("Lup", "Lupus");
   ("Lyn", "Lynx"); ("Lyr", "Lyra"); ("Men", "Mensa");
   ("Mic", "Microscopium"); ("Mon", "Monoceros"); ("Mus", "Musca");
   ("Nor", "Norma"); ("Oct", "Octans"); ("Oph", "Ophiuchus"); ("Ori", "Orion");
   ("Pav", "Pavo"); ("Peg", "Pegasus"); ("Per", "Perseus"); ("Phe", "Phoenix");
   ("Pic", "Pictor"); ("Psc", "Pisces"); ("PsA", "Piscis Austrinus");
   ("Pup", "Puppis"); ("Pyx", "Pyxis"); ("Ret", "Reticulum");
   ("Sge", "Sagitta (not to be confused with Sagittarius)");
   ("Sgr", "Sagittarius"); ("Sco", "Scorpius"); ("Scl", "Sculptor");
   ("Sct", "Scutum"); ("Ser", "Serpens"); ("Sex", "Sextans"); ("Tau", "Taurus");
   ("Tel", "Telescopium"); ("Tri", "Triangulum");
   ("TrA", "Triangulum Australe"); ("Tuc", "Tucana"); ("UMa", "Ursa Major");
   ("UMi", "Ursa Minor"); ("Vel", "Vela"); ("Vir", "Virgo"); ("Vol", "Volans");
   ("Vul", "Vulpecula")].

(* Standard constellation abbreviations, as dict. *)
Definition CONST_ABBREV : gmap string string := dict_display CONST_ABBREV_items.

(** [d[k]]: subscription raises [KeyError] on a missing key. *)
Definition dict_getitem (d : gmap string string) (k : string) : result string :=
  match d !! k with
  | Some v => Return v
  | None => Raise (KeyError k)
  end.

(** ** Values handed over by the database *)

(** A cell of a column that holds a number where it is known and the empty
    string where it is not. *)
Inductive cell : Type :=
  | Number (n : Z)
  | Text (s : string).

(** [str(v)]. *)
Definition str (v : cell) : string :=
  match v with
  | Number n => pretty n
  | Text s => s
  end.

(** [v != ""]: a number never equals a string. *)
Definition cell_nonempty (v : cell) : bool :=
  match v with
  | Number _ => true
  | Text s => negb (String.eqb s "")
  end.

(** ** class Star *)

Record Star : Type := mkStar {
  _database_id : Z;
  _gl_id : string;
  _distance : Q;            (* parsecs *)
  _proper_name : string;    (* "" if not known *)
  _magnitude : Q;
  _color : option Q;        (* None stands for the "" of an unknown colour *)
  _constellation : string;  (* "" if not known *)
  _hip_id : string
}.

Definition __init__ (database_id : Z) (hip_id : cell) (gl_id proper_name : string)
    (distance magnitude : Q) (color : option Q) (constellation : string) : Star :=
  {| _database_id := database_id;
     _gl_id := gl_id;
     _distance := distance;
     _proper_name := proper_name;
     _magnitude := magnitude;
     _color := color;
     _constellation := constellation;
     _hip_id := if cell_nonempty hip_id then "HIP " ++ str hip_id else "" |}.

Definition Qltb (x y : Q) : bool := negb (Qle_bool y x).

Definition get_color (self : Star) : string :=
  match _color self with
  | Some c =>
      if Qltb c 0.35 then "blue"
      else if Qltb c 0.8 then "yellow"
      else "red"
  | None => "red"
  end.

Definition has_proper_name (self : Star) : bool :=
  negb (String.eqb (_proper_name self) "").

Definition has_constellation (self : Star) : bool :=
  negb (String.eqb (_constellation self) "").

Definition get_constellation (self : Star) : result string :=
  dict_getitem CONST_ABBREV (_constellation self).

Definition is_visible (self : Star) : bool :=
  Qltb (_magnitude self) 6.5.

Definition get_identifier (self : Star) : string :=
  if negb (String.eqb (_hip_id self) "") then _hip_id self else _gl_id self.

Definition get_distance_in_lightyears (self : Star) : Q :=
  _distance self * LIGHT_YEARS_IN_1_PARSEC.

(** ** The [datetime] module of the standard library, as far as it is used *)

(** [round(x)]: to the nearest integer, a tie to the even neighbour. *)
Definition round_half_even (x : Q) : Z :=
  let f := Qfloor x in
  match (x - inject_Z f ?= 1 # 2)%Q with
  | Lt => f
  | Gt => f + 1
  | Eq => if Z.even f then f else f + 1
  end.

Module datetime.

(* date(9999, 12, 31).toordinal(); date(1, 1, 1).toordinal() is 1 *)
Definition MAXORDINAL : Z := 3652059.
Definition MAX_DELTA_DAYS : Z := 999999999.
Definition US_PER_DAY : Z := 86400 * 1000000.

(** A date is its proleptic Gregorian ordinal. *)
Record date : Type := mkdate { toordinal : Z }.

(** A naive datetime: its date and the microseconds elapsed since the
    midnight that starts it. *)
Record datetime : Type := mkdatetime { dt_date : date; dt_us : Z }.

(** A timedelta is normalised to days, seconds and microseconds, that is
    to one integer count of microseconds. *)
Record timedelta : Type := mktimedelta { total_us : Z }.

Definition valid_date (d : date) : Prop :=
  1 <= toordinal d <= MAXORDINAL.

Definition valid_datetime (t : datetime) : Prop :=
  valid_date (dt_date t) /\ 0 <= dt_us t < US_PER_DAY.

(** Microseconds from the midnight that starts ordinal 0. *)
Definition instant (t : datetime) : Z :=
  toordinal (dt_date t) * US_PER_DAY + dt_us t.

Definition days_in_range (us : Z) : bool :=
  (- MAX_DELTA_DAYS <=? us / US_PER_DAY) && (us / US_PER_DAY <=? MAX_DELTA_DAYS).

(** [timedelta(days = d)] for a float [d]: rounded to the microsecond. *)
Definition timedelta_days (d : Q) : result timedelta :=
  let us := round_half_even (d * inject_Z US_PER_DAY) in
  if days_in_range us then Return (mktimedelta us) else Raise OverflowError.

(** [a - b] for two dates: a whole number of days.  No two dates are
    further apart than [MAX_DELTA_DAYS]. *)
Definition date_sub (a b : date) : timedelta :=
  mktimedelta ((toordinal a - toordinal b) * US_PER_DAY).

Definition total_seconds (td : timedelta) : Q :=
  total_us td # 1000000.

(** [t + td]: fails when the sum leaves the years 1 to 9999. *)
Definition datetime_add (t : datetime) (td : timedelta) : result datetime :=
  let us := instant t + total_us td in
  let day := us / US_PER_DAY in
  if (1 <=? day) && (day <=? MAXORDINAL)
  then Return (mkdatetime (mkdate day) (us mod US_PER_DAY))
  else Raise OverflowError.

End datetime.

(** ** Functions reading the wall clock *)

(** [now] is the value of [datetime.datetime.now()] at the call. *)
Definition years_since_date (now : datetime.datetime) (date : datetime.date) : Q :=
  datetime.total_seconds (datetime.date_sub (datetime.dt_date now) date)
  / inject_Z SECS_IN_YEAR.

(** The clock is read twice: [now_1] inside [years_since_date], then [now_2]
    for the sum that is returned. *)
Definition when_will_light_hit (now_1 now_2 : datetime.datetime) (self : Star)
    (emit_date : datetime.date) : result datetime.date :=
  let light_years_traveled := years_since_date now_1 emit_date in
  let* timedelta :=
    datetime.timedelta_days
      ((get_distance_in_lightyears self - light_years_traveled) * 365.25) in
  let* arrival := datetime.datetime_add now_2 timedelta in
  Return (datetime.dt_date arrival).

(** ** The stars database *)

(** A row of the [stars] table: its columns in the order in which the
    unpacking call of [Star] hands them to [__init__]. *)
Record row : Type := mkrow {
  col_database_id : Z;
  col_hip_id : cell;
  col_gl_id : string;
  col_proper_name : string;
  col_distance : Q;
  col_magnitude : Q;
  col_color : option Q;
  col_constellation : string
}.

(** A cursor: the table it is connected to and the rows of the last query
    that are still to be fetched. *)
Record cursor : Type := mkcursor {
  stars : list row;
  pending : list row
}.

Section OrderBy.
Variable key : row -> Q.

Fixpoint insert_by (r : row) (sorted : list row) : list row :=
  match sorted with
  | [] => [r]
  | x :: rest =>
      if Qle_bool (key r) (key x) then r :: sorted
      else x :: insert_by r rest
  end.

(** [ORDER BY key]: ascending; rows with equal keys stay in storage
    order. *)
Definition order_by (rows : list row) : list row :=
  foldr insert_by [] rows.
End OrderBy.

(** [execute("SELECT * FROM stars ORDER BY ABS(? - distance) LIMIT 1", (p,))] *)
Definition execute_nearest (db_cursor : cursor) (p : Q) : cursor :=
  {| stars := stars db_cursor;
     pending := take 1 (order_by (fun r => Qabs (p - col_distance r)) (stars db_cursor)) |}.

(** [fetchone()]: the next row, or [None] when none is left. *)
Definition fetchone (db_cursor : cursor) : option row * cursor :=
  (head (pending db_cursor),
   {| stars := stars db_cursor; pending := tail (pending db_cursor) |}).

(** The call of [Star] on an unpacked row. *)
Definition Star_of_row (r : row) : Star :=
  __init__ (col_database_id r) (col_hip_id r) (col_gl_id r) (col_proper_name r)
    (col_distance r) (col_magnitude r) (col_color r) (col_constellation r).

(** The same call on what [fetchone] returned; [None] cannot be unpacked. *)
Definition Star_of_fetched (t : option row) : result Star :=
  match t with
  | Some r => Return (Star_of_row r)
  | None => Raise TypeError
  end.

(** The parameter bound to the [?] of the query. *)
Definition target_parsecs (light_years : Q) : Q :=
  light_years / LIGHT_YEARS_IN_1_PARSEC.

Definition get_star_from_years (light_years : Q) (db_cursor : cursor) : result Star :=
  let db_cursor := execute_nearest db_cursor (target_parsecs light_years) in
  Star_of_fetched (fst (fetchone db_cursor)).

(** ** The same functions over binary64 numbers *)

(** The definitions above take a Python [float] for the rational it
    denotes.  Where the result depends on how the machine rounds, the
    functions are given again in [Binary64]: a [float] is a primitive
    binary64 number, its arithmetic and comparisons are the primitive ones of
    IEEE 754, which Python and SQLite use, and a float literal of the source
    is the binary64 number nearest to it. *)

Module Binary64.

Definition LIGHT_YEARS_IN_1_PARSEC : float := 3.26163344%float.

(** *** class Star *)

Record Star : Type := mkStar {
  _database_id : Z;
  _gl_id : string;
  _distance : float;
  _proper_name : string;
  _magnitude : float;
  _color : option float;
  _constellation : string;
  _hip_id : string
}.

Definition __init__ (database_id : Z) (hip_id : cell) (gl_id proper_name : string)
    (distance magnitude : float) (color : option float) (constellation : string) : Star :=
  {| _database_id := database_id;
     _gl_id := gl_id;
     _distance := distance;
     _proper_name := proper_name;
     _magnitude := magnitude;
     _color := color;
     _constellation := constellation;
     _hip_id := if cell_nonempty hip_id then "HIP " ++ str hip_id else "" |}.

Definition get_distance_in_lightyears (self : Star) : float :=
  (_distance self * LIGHT_YEARS_IN_1_PARSEC)%float.

(** *** [datetime.timedelta] and floats *)

(** The rational that a finite binary64 number is. *)
Definition SF2Q (x : spec_float) : Q :=
  match x with
  | S754_finite s m e => inject_Z (cond_Zopp s (Zpos m)) * Qpower 2 e
  | _ => 0
  end.

(** An integer as it is, for an operation that rounds its result once. *)
Definition exact_int (n : Z) : spec_float :=
  match n with
  | Z0 => S754_zero false
  | Zpos p => S754_finite false p 0
  | Zneg p => S754_finite true p 0
  end.

(** [float(n)] of an integer: the binary64 number nearest to it. *)
Definition float_of_int (n : Z) : float :=
  SF2Prim (binary_normalize prec emax n 0 false).

(** C's [modf]: the integral part of a finite number, towards zero, and
    what is left, which is a binary64 number of the same sign. *)
Definition modf (x : spec_float) : Z * spec_float :=
  match x with
  | S754_finite s m e =>
      if 0 <=? e then (cond_Zopp s (Zpos m * 2 ^ e), S754_zero s)
      else
        (cond_Zopp s (Zpos m / 2 ^ (- e)),
         binary_normalize prec emax (cond_Zopp s (Zpos m mod 2 ^ (- e))) e s)
  | _ => (0, x)
  end.

(** C's [round]: to the nearest integer, a tie away from zero. *)
Definition round_half_away (x : Q) : Z :=
  if Qle_bool 0 x then Qfloor (x + (1 # 2)) else - Qfloor (- x + (1 # 2)).

(** The microseconds of [timedelta(days = d)], as the constructor computes
    them for a float: the integral days exactly, the fraction of a day
    through one float product with the microseconds of a day, and what is
    left of a microsecond rounded, a tie to the even total. *)
Definition timedelta_microseconds (d : float) : result Z :=
  match Prim2SF d with
  | S754_nan => Raise ValueError
  | S754_infinity _ => Raise OverflowError
  | dnum =>
      let '(intpart, fracpart) := modf dnum in
      let sum := intpart * datetime.US_PER_DAY in
      if SFeqb fracpart (S754_zero false) then Return sum
      else
        let dnum := SF64mul (Prim2SF (float_of_int datetime.US_PER_DAY)) fracpart in
        let '(intpart, fracpart) := modf dnum in
        let y := sum + intpart in
        let leftover_us := SF2Q fracpart in
        if Qeq_bool leftover_us 0 then Return y
        else
          let whole_us := round_half_away leftover_us in
          let x_is_odd := if Z.odd y then 1 else 0 in
          let whole_us :=
            if Qeq_bool (Qabs (inject_Z whole_us - leftover_us)) (1 # 2)
            then 2 * round_half_away ((leftover_us + inject_Z x_is_odd) * (1 # 2))
                 - x_is_odd
            else whole_us in
          Return (y + whole_us)
  end.

(** [timedelta(days = d)] for a float [d]. *)
Definition timedelta_days (d : float) : result datetime.timedelta :=
  let* us := timedelta_microseconds d in
  if datetime.days_in_range us then Return (datetime.mktimedelta us)
  else Raise OverflowError.

(** [td.total_seconds()]: the quotient of two integers, rounded once. *)
Definition total_seconds (td : datetime.timedelta) : float :=
  SF2Prim (SF64div (exact_int (datetime.total_us td)) (exact_int 1000000)).

(** *** Functions reading the wall clock *)

Definition years_since_date (now : datetime.datetime) (date : datetime.date) : float :=
  (total_seconds (datetime.date_sub (datetime.dt_date now) date)
   / float_of_int SECS_IN_YEAR)%float.

Definition when_will_light_hit (now_1 now_2 : datetime.datetime) (self : Star)
    (emit_date : datetime.date) : result datetime.date :=
  let light_years_traveled := years_since_date now_1 emit_date in
  let* timedelta :=
    timedelta_days
      ((get_distance_in_lightyears self - light_years_traveled) * 365.25)%float in
  let* arrival := datetime.datetime_add now_2 timedelta in
  Return (datetime.dt_date arrival).

(** *** The stars database *)

Record row : Type := mkrow {
  col_database_id : Z;
  col_hip_id : cell;
  col_gl_id : string;
  col_proper_name : string;
  col_distance : float;
  col_magnitude : float;
  col_color : option float;
  col_constellation : string
}.

Record cursor : Type := mkcursor {
  stars : list row;
  pending : list row
}.

(** The order of SQLite on the values of a sort key: a result that is not
    a number is NULL, and NULL comes first; numbers compare as binary64
    numbers do. *)
Definition key_le (a b : float) : bool :=
  is_nan a || (negb (is_nan b) && (a <=? b)%float).

Section OrderBy.
Variable key : row -> float.

Fixpoint insert_by (r : row) (sorted : list row) : list row :=
  match sorted with
  | [] => [r]
  | x :: rest =>
      if key_le (key r) (key x) then r :: sorted
      else x :: insert_by r rest
  end.

(** [ORDER BY key]: ascending; rows with equal keys stay in storage
    order. *)
Definition order_by (rows : list row) : list row :=
  foldr insert_by [] rows.
End OrderBy.

(** The sort key [ABS(? - distance)] of a row, for the parameter [p]. *)
Definition nearest_key (p : float) (r : row) : float :=
  abs (p - col_distance r)%float.

(** [execute("SELECT * FROM stars ORDER BY ABS(? - distance) LIMIT 1", (p,))] *)
Definition execute_nearest (db_cursor : cursor) (p : float) : cursor :=
  {| stars := stars db_cursor;
     pending := take 1 (order_by (nearest_key p) (stars db_cursor)) |}.

Definition fetchone (db_cursor : cursor) : option row * cursor :=
  (head (pending db_cursor),
   {| stars := stars db_cursor; pending := tail (pending db_cursor) |}).

Definition Star_of_row (r : row) : Star :=
  __init__ (col_database_id r) (col_hip_id r) (col_gl_id r) (col_proper_name r)
    (col_distance r) (col_magnitude r) (col_color r) (col_constellation r).

Definition Star_of_fetched (t : option row) : result Star :=
  match t with
  | Some r => Return (Star_of_row r)
  | None => Raise TypeError
  end.

Definition get_star_from_years (light_years : float) (db_cursor : cursor) : result Star :=
  let db_cursor :=
    execute_nearest db_cursor (light_years / LIGHT_YEARS_IN_1_PARSEC)%float in
  Star_of_fetched (fst (fetchone db_cursor)).

End Binary64.

(** *** Notions for the properties of the binary64 functions *)

(** The rational that a binary64 number is, when it is finite. *)
Definition value (x : float) : Q := Binary64.SF2Q (Prim2SF x).

(** The place of a number in the order of IEEE 754: its sign class, then
    its exponent and its digits, both reversed for a negative number. *)
Definition SFrank (x : spec_float) : Z * Z * Z :=
  match x with
  | S754_nan => (-3, 0, 0)
  | S754_infinity true => (-2, 0, 0)
  | S754_finite true m e => (-1, - e, Zneg m)
  | S754_zero _ => (0, 0, 0)
  | S754_finite false m e => (1, e, Zpos m)
  | S754_infinity false => (2, 0, 0)
  end.

Definition lex_le (a b : Z * Z * Z) : Prop :=
  a.1.1 < b.1.1 \/
  (a.1.1 = b.1.1 /\ (a.1.2 < b.1.2 \/ (a.1.2 = b.1.2 /\ a.2 <= b.2))).

(** SQLite's order of the keys, on the numbers as IEEE 754 specifies
    them. *)
Definition SFkey_le (x y : spec_float) : bool :=
  match x, y with
  | S754_nan, _ => true
  | _, S754_nan => false
  | _, _ => SFleb x y
  end.

(** A binary64 number that is not above zero, or no number at all; one
    that is above zero. *)
Definition SFnonpos (x : spec_float) : Prop :=
  match x with
  | S754_finite s _ _ | S754_infinity s => s = true
  | _ => True
  end.

Definition SFpos (x : spec_float) : Prop :=
  match x with
  | S754_finite s _ _ | S754_infinity s => s = false
  | _ => False
  end.

(** The star that [__init__] builds from a row, written out field by
    field. *)
Abbreviation built_from r :=
  (Binary64.mkStar (Binary64.col_database_id r) (Binary64.col_gl_id r)
     (Binary64.col_distance r) (Binary64.col_proper_name r)
     (Binary64.col_magnitude r) (Binary64.col_color r)
     (Binary64.col_constellation r)
     (if cell_nonempty (Binary64.col_hip_id r)
      then "HIP " ++ str (Binary64.col_hip_id r) else "")).

(** ** Notions of the specification *)

(** Following the specification's words: the time elapsed between the
    start of [date] and the moment [now], in Julian years of 31,557,600
    seconds. *)
Definition elapsed_julian_years (now : datetime.datetime) (date : datetime.date) : Q :=
  ((datetime.instant now - datetime.toordinal date * datetime.US_PER_DAY) # 1000000)
  / inject_Z 31557600.

(** The midnight that starts the day of [now]. *)
Definition start_of_day (now : datetime.datetime) : datetime.datetime :=
  datetime.mkdatetime (datetime.dt_date now) 0.

(** Following the specification's words: the light years still to travel
    ([remaining]), as a number of days of which a year has 365.25, added to
    the current moment; the result truncated to its day. *)
Definition remaining_light_years (now_1 : datetime.datetime) (self : Star)
    (emit_date : datetime.date) : Q :=
  get_distance_in_lightyears self - years_since_date now_1 emit_date.

Definition projected_arrival (now_1 now_2 : datetime.datetime) (self : Star)
    (emit_date : datetime.date) : Z :=
  datetime.instant now_2
  + round_half_even (remaining_light_years now_1 self emit_date * 365.25
                     * inject_Z datetime.US_PER_DAY).

Definition projected_arrival_date (now_1 now_2 : datetime.datetime) (self : Star)
    (emit_date : datetime.date) : datetime.date :=
  datetime.mkdate (projected_arrival now_1 now_2 self emit_date / datetime.US_PER_DAY).

(** The years 1 to 9999. *)
Definition in_date_range (d : datetime.date) : bool :=
  (1 <=? datetime.toordinal d) && (datetime.toordinal d <=? datetime.MAXORDINAL).

(** The time the light of a star takes to reach Earth, a year of the
    distance in light years being 365.25 days, in microseconds. *)
Definition travel_microseconds (self : Star) : Z :=
  round_half_even
    (get_distance_in_lightyears self * 365.25 * inject_Z datetime.US_PER_DAY).

(** ** The command line *)

Section Main.
(** [str(d)] of a date [d], which the standard library formats. *)
Variable date_str : datetime.date -> string.

(** [main], from the birthday [date_object] that [strptime] made of the
    line read, on the cursor [c] of the connection.  [clock i] is the
    reading of the wall clock at the i-th call of [datetime.datetime.now()];
    the result is the lines printed and the exception raised, if any. *)
Definition main_from_birthday (clock : nat -> datetime.datetime)
    (date_object : datetime.date) (c : cursor) : list string * option exn :=
  match get_star_from_years (years_since_date (clock 0%nat) date_object) c with
  | Raise e => ([], Some e)
  | Return star =>
      let printed := ["Your current birth star is " ++ get_identifier star ++ "."] in
      match when_will_light_hit (clock 1%nat) (clock 2%nat) star date_object with
      | Raise e => (printed, Some e)
      | Return hit =>
          let future_tense_modifier :=
            if Qltb (years_since_date (clock 3%nat) hit) 0 then "will " else "" in
          match when_will_light_hit (clock 4%nat) (clock 5%nat) star date_object with
          | Raise e => (printed, Some e)
          | Return hit_again =>
              let line :=
                "The light that left this star when you were born " ++
                future_tense_modifier ++ "hit the earth on " ++ date_str hit_again in
              ((printed ++ [line])%list, None)
          end
      end
  end.
End Main.

(** ** Sample records *)

Definition Betelgeuse : Star :=
  __init__ 27919 (Number 27989) "" "Betelgeuse" 152.6718 0.45 (Some 1.5%Q) "Ori".

Definition Gl_244_B : Star :=
  __init__ 118441 (Text "") "Gl 244B" "" 2.6371 8.44 None "".

Definition star_at_1_parsec : row :=
  mkrow 1 (Number 71683) "Gl 559A" "Rigil Kentaurus" 1.0 (-0.01) (Some 0.71%Q) "Cen".
Definition star_at_2_parsecs : row :=
  mkrow 2 (Text "") "Gl 244" "" 2.0 8.44 None "".
Definition star_at_5_parsecs : row :=
  mkrow 3 (Number 37279) "Gl 280A" "Procyon" 5.0 0.4 (Some 0.432%Q) "CMi".

Definition star_at_8_6_light_years : row :=
  mkrow 4 (Number 32263) "Gl 244A" "Sirius" (target_parsecs 8.6) (-1.44)
    (Some 0.009%Q) "CMa".

Definition Rigel : row :=
  mkrow 5 (Number 24436) "" "Rigel" 264.5503 0.18 (Some (-0.03)%Q) "Ori".

Definition three_stars : list row :=
  [star_at_1_parsec; star_at_2_parsecs; star_at_5_parsecs].

Definition row_at_1_parsec : Binary64.row :=
  Binary64.mkrow 1 (Number 71683) "Gl 559A" "Rigil Kentaurus" 1.0 (-0.01) (Some 0.71%float) "Cen".
Definition row_at_2_parsecs : Binary64.row :=
  Binary64.mkrow 2 (Text "") "Gl 244" "" 2.0 8.44 None "".
Definition row_at_5_parsecs : Binary64.row :=
  Binary64.mkrow 3 (Number 37279) "Gl 280A" "Procyon" 5.0 0.4 (Some 0.432%float) "CMi".

(* Two records one binary64 number apart. *)
Definition row_at_24_parsecs : Binary64.row :=
  Binary64.mkrow 4 (Text "") "Gl 4" "" 24.0 9.5 None "".
Definition row_just_past_24_parsecs : Binary64.row :=
  Binary64.mkrow 5 (Text "") "Gl 5" "" 24.000000000000004 9.5 None "".

(* A record at the distance the HYG database gives to a star whose
   parallax it does not know. *)
Definition far_star : Binary64.Star :=
  Binary64.__init__ 119615 (Number 118322) "" "" 100000.0 12.45 None "".

Definition Betelgeuse64 : Binary64.Star :=
  Binary64.__init__ 27919 (Number 27989) "" "Betelgeuse" 152.6718 0.45
    (Some 1.5%float) "Ori".

Definition morning_of_738886 : datetime.datetime :=
  datetime.mkdatetime (datetime.mkdate 738886)
    ((7 * 3600 + 28 * 60 + 36) * 1000000 + 694992).

Definition noon_of_738886 : datetime.datetime :=
  datetime.mkdatetime (datetime.mkdate 738886) (12 * 3600 * 1000000).

(** * Properties *)

(** ** Comparison of rationals *)

Lemma Qltb_lt (x y : Q) : Qltb x y = true <-> (x < y)%Q.
Proof.
  unfold Qltb. rewrite negb_true_iff, <- not_true_iff_false, Qle_bool_iff.
  split; [apply Qnot_le_lt | apply Qlt_not_le].
Qed.

Lemma Qltb_ge (x y : Q) : Qltb x y = false <-> (y <= x)%Q.
Proof.
  unfold Qltb. rewrite negb_false_iff. apply Qle_bool_iff.
Qed.

(** ** The constellation table *)

Lemma dict_display_snoc items k v :
  dict_display (items ++ [(k, v)]) = <[k := v]> (dict_display items).
Proof. unfold dict_display. by rewrite foldl_snoc. Qed.

(** Without a repeated key no item of a dict display is overwritten. *)
Lemma dict_display_NoDup items :
  NoDup (items.*1) -> dict_display items = list_to_map items.
Proof.
  induction items as [|[k v] items IH] using rev_ind; intros Hnd; [done|].
  rewrite fmap_app in Hnd. apply NoDup_app in Hnd as (Hnd & Hk & _).
  rewrite dict_display_snoc, IH by done.
  symmetry. apply list_to_map_snoc.
  intros Hin. apply (Hk k Hin). simpl. apply list_elem_of_here.
Qed.

Lemma CONST_ABBREV_keys_NoDup : NoDup (CONST_ABBREV_items.*1).
Proof. apply (bool_decide_unpack _). by vm_compute. Qed.

Lemma CONST_ABBREV_lookup code name :
  CONST_ABBREV !! code = Some name <-> (code, name) ∈ CONST_ABBREV_items.
Proof.
  unfold CONST_ABBREV.
  rewrite (dict_display_NoDup _ CONST_ABBREV_keys_NoDup).
  symmetry. apply elem_of_list_to_map, CONST_ABBREV_keys_NoDup.
Qed.

Lemma CONST_ABBREV_lookup_None code :
  CONST_ABBREV !! code = None <-> code ∉ CONST_ABBREV_items.*1.
Proof.
  unfold CONST_ABBREV.
  rewrite (dict_display_NoDup _ CONST_ABBREV_keys_NoDup).
  symmetry. apply not_elem_of_list_to_map.
Qed.

(** C4. The table has 88 entries with 88 distinct abbreviations, and for a
    star with a constellation code recorded [get_constellation] returns a
    name exactly when the table pairs the code with that name, and raises
    [KeyError] exactly when the code is none of the 88 abbreviations. *)
Theorem get_constellation_recognized (self : Star) :
  has_constellation self = true ->
  length CONST_ABBREV_items = 88%nat /\
  size CONST_ABBREV = 88%nat /\
  (forall name,
      get_constellation self = Return name <->
      (_constellation self, name) ∈ CONST_ABBREV_items) /\
  (get_constellation self = Raise (KeyError (_constellation self)) <->
   _constellation self ∉ CONST_ABBREV_items.*1).
Proof.
  intros _. split; [reflexivity|]. split; [by vm_compute|].
  unfold get_constellation, dict_getitem. split.
  - intros name. rewrite <- CONST_ABBREV_lookup.
    destruct (CONST_ABBREV !! _constellation self); split; congruence.
  - rewrite <- CONST_ABBREV_lookup_None.
    destruct (CONST_ABBREV !! _constellation self); split; congruence.
Qed.

Lemma get_constellation_recognized_witness :
  has_constellation Betelgeuse = true /\
  get_constellation Betelgeuse = Return "Orion".
Proof.
  split; [reflexivity|].
  destruct (get_constellation_recognized Betelgeuse eq_refl) as (_ & _ & Hname & _).
  apply Hname. apply (bool_decide_unpack _). by vm_compute.
Defined.

(** C10. For a star with no constellation recorded, [get_constellation]
    raises [KeyError] (for the key [""]) and returns no string. *)
Theorem get_constellation_unrecorded (self : Star) :
  has_constellation self = false ->
  get_constellation self = Raise (KeyError "").
Proof.
  unfold has_constellation. rewrite negb_false_iff, String.eqb_eq.
  intros Hcode. unfold get_constellation, dict_getitem. rewrite Hcode.
  by vm_compute.
Qed.

Lemma get_constellation_unrecorded_witness :
  has_constellation Gl_244_B = false /\
  get_constellation Gl_244_B = Raise (KeyError "").
Proof.
  split; [reflexivity|].
  apply (get_constellation_unrecorded Gl_244_B). reflexivity.
Defined.

(** ** Derived properties of a star *)

Example str_of_numbers :
  str (Number 32349) = "32349" /\ str (Number 0) = "0" /\ str (Number (-5)) = "-5".
Proof. by vm_compute. Qed.

Example Betelgeuse_derived :
  get_color Betelgeuse = "red" /\ is_visible Betelgeuse = true /\
  get_identifier Betelgeuse = "HIP 27989" /\ has_proper_name Betelgeuse = true.
Proof. by vm_compute. Qed.

(** C3. [get_color] is "blue" exactly for a known colour index below 0.35,
    "yellow" exactly for a known one in [0.35, 0.8), and "red" in every
    other case, an unknown colour index included; an index of exactly 0.35
    gives "yellow" and one of exactly 0.8 gives "red". *)
Theorem get_color_classes (self : Star) :
  (get_color self = "blue" <-> exists c, _color self = Some c /\ (c < 0.35)%Q) /\
  (get_color self = "yellow" <->
   exists c, _color self = Some c /\ (0.35 <= c)%Q /\ (c < 0.8)%Q) /\
  (get_color self = "red" <->
   _color self = None \/ exists c, _color self = Some c /\ (0.8 <= c)%Q) /\
  (forall c, _color self = Some c -> (c == 0.35)%Q -> get_color self = "yellow") /\
  (forall c, _color self = Some c -> (c == 0.8)%Q -> get_color self = "red") /\
  (_color self = None -> get_color self = "red").
Proof.
  unfold get_color. destruct (_color self) as [c|].
  - destruct (Qltb c 0.35) eqn:Hblue; [|destruct (Qltb c 0.8) eqn:Hyellow].
    + apply Qltb_lt in Hblue.
      assert (c < 0.8)%Q as Hlt by (eapply Qlt_trans; [exact Hblue | reflexivity]).
      repeat split; try discriminate; try (intros [? | (c' & [= <-] & Hc)]);
        try (intros (c' & [= <-] & Hc)); try discriminate.
      * by exists c.
      * destruct Hc as [Hc _]. by apply Qle_not_lt in Hc.
      * by apply Qle_not_lt in Hc.
      * intros c' [= <-] Heq. rewrite Heq in Hblue. discriminate Hblue.
      * intros c' [= <-] Heq. rewrite Heq in Hlt. discriminate Hlt.
    + apply Qltb_ge in Hblue. apply Qltb_lt in Hyellow.
      repeat split; try discriminate; try (intros [? | (c' & [= <-] & Hc)]);
        try (intros (c' & [= <-] & Hc)); try discriminate.
      * by apply Qle_not_lt in Hblue.
      * by exists c.
      * by apply Qle_not_lt in Hc.
      * intros c' [= <-] Heq. rewrite Heq in Hyellow. discriminate Hyellow.
    + apply Qltb_ge in Hblue. apply Qltb_ge in Hyellow.
      repeat split; try discriminate; try (intros (c' & [= <-] & Hc)).
      * by apply Qle_not_lt in Hblue.
      * destruct Hc as [_ Hc]. by apply Qle_not_lt in Hyellow.
      * intros _. right. by exists c.
      * intros c' [= <-] Heq. rewrite Heq in Hyellow. by destruct Hyellow.
  - repeat split; try discriminate; try (intros (c' & [=] & _)); auto.
Qed.

(** C8. [is_visible] is true exactly when the apparent magnitude is below
    6.5: a magnitude of 6.4 is visible, 6.5 and 6.6 are not. *)
Theorem is_visible_threshold (self : Star) :
  (is_visible self = true <-> (_magnitude self < 6.5)%Q) /\
  ((_magnitude self == 6.4)%Q -> is_visible self = true) /\
  ((_magnitude self == 6.5)%Q -> is_visible self = false) /\
  ((_magnitude self == 6.6)%Q -> is_visible self = false).
Proof.
  unfold is_visible. split; [apply Qltb_lt|].
  repeat split; intros Heq.
  - apply Qltb_lt. by rewrite Heq.
  - apply Qltb_ge. rewrite Heq. apply Qle_refl.
  - apply Qltb_ge. by rewrite Heq.
Qed.

(** C7. A star built from a record with a HIP id returns that id behind the
    prefix "HIP " as its identifier, and a star built from a record without
    one returns the Gliese id as it is: the id "32349" gives "HIP 32349",
    and the Gliese id "Gl 244" is returned when the HIP id is absent. *)
Theorem get_identifier_prefers_hip (database_id : Z) (hip_id : cell)
    (gl_id proper_name : string) (distance magnitude : Q) (color : option Q)
    (constellation : string) :
  let Star_with hip gl :=
    __init__ database_id hip gl proper_name distance magnitude color constellation in
  (hip_id <> Text "" ->
   get_identifier (Star_with hip_id gl_id) = "HIP " ++ str hip_id) /\
  (hip_id = Text "" -> get_identifier (Star_with hip_id gl_id) = gl_id) /\
  get_identifier (Star_with (Text "32349") gl_id) = "HIP 32349" /\
  get_identifier (Star_with (Number 32349) gl_id) = "HIP 32349" /\
  get_identifier (Star_with (Text "") "Gl 244") = "Gl 244".
Proof.
  cbv zeta. split; [|split; [|by vm_compute]].
  - intros Hhip. unfold get_identifier, __init__; simpl.
    destruct hip_id as [n | [|a s]]; simpl; congruence.
  - by intros ->.
Qed.

(** ** Parsecs and light years *)

Lemma light_years_of_target_parsecs (x : Q) :
  (target_parsecs x * LIGHT_YEARS_IN_1_PARSEC == x)%Q.
Proof. unfold target_parsecs. by apply Qdiv_mult_l. Qed.

(** C9. A star that lies at the parsec distance to which
    [get_star_from_years] converts [x] light years is [x] light years away
    according to [get_distance_in_lightyears]: dividing by 3.26163344 and
    multiplying by it again gives [x] back (here for exact numbers). *)
Theorem lightyears_parsecs_roundtrip (x : Q) (self : Star) :
  (0 <= x)%Q ->
  (_distance self == target_parsecs x)%Q ->
  (get_distance_in_lightyears self == x)%Q.
Proof.
  intros _ Hdist. unfold get_distance_in_lightyears. rewrite Hdist.
  apply light_years_of_target_parsecs.
Qed.

Lemma lightyears_parsecs_roundtrip_witness :
  (0 <= 8.6)%Q /\
  (_distance (Star_of_row star_at_8_6_light_years) == target_parsecs 8.6)%Q /\
  (get_distance_in_lightyears (Star_of_row star_at_8_6_light_years) == 8.6)%Q.
Proof.
  split; [discriminate|]. split; [reflexivity|].
  apply lightyears_parsecs_roundtrip; [discriminate | reflexivity].
Defined.

(** ** The nearest star *)

Section OrderByFacts.
Variable key : row -> Q.

Lemma head_insert_by (r : row) (sorted : list row) :
  head (insert_by key r sorted) =
  match head sorted with
  | None => Some r
  | Some x => if Qle_bool (key r) (key x) then Some r else Some x
  end.
Proof. destruct sorted as [|x rest]; simpl; [|destruct Qle_bool]; reflexivity. Qed.

Lemma order_by_nil_inv (rows : list row) :
  head (order_by key rows) = None -> rows = [].
Proof.
  destruct rows as [|r rows]; [done|]. simpl. rewrite head_insert_by.
  destruct (head _); [destruct Qle_bool|]; discriminate.
Qed.

(** The first row of the ordered table is a row of the table, and no row
    of the table has a smaller key. *)
Lemma head_order_by_min (rows : list row) (r : row) :
  head (order_by key rows) = Some r ->
  r ∈ rows /\ forall r', r' ∈ rows -> (key r <= key r')%Q.
Proof.
  revert r. induction rows as [|x rows IH]; intros r; [discriminate|].
  simpl. rewrite head_insert_by.
  destruct (head (order_by key rows)) as [m|] eqn:Hm.
  - destruct (IH m eq_refl) as [Hin Hmin].
    destruct (Qle_bool (key x) (key m)) eqn:Hle; intros [= <-].
    + apply Qle_bool_iff in Hle. split; [apply list_elem_of_here|].
      intros r' [->|Hr']%elem_of_cons; [apply Qle_refl|].
      eapply Qle_trans; [exact Hle | by apply Hmin].
    + split; [by apply list_elem_of_further|].
      intros r' [->|Hr']%elem_of_cons; [|by apply Hmin].
      apply Qlt_le_weak, Qnot_le_lt. intros Hle'.
      apply Qle_bool_iff in Hle'. congruence.
  - apply order_by_nil_inv in Hm as ->. intros [= <-].
    split; [apply list_elem_of_here|].
    intros r' [->|Hr']%elem_of_cons; [apply Qle_refl|].
    by apply elem_of_nil in Hr'.
Qed.

Lemma head_order_by_is_Some (rows : list row) :
  rows <> [] -> exists r, head (order_by key rows) = Some r.
Proof.
  intros Hne. destruct (head (order_by key rows)) as [r|] eqn:Hr; [by exists r|].
  by apply order_by_nil_inv in Hr.
Qed.

End OrderByFacts.

Lemma head_take_1 {A} (l : list A) : head (take 1 l) = head l.
Proof. by destruct l. Qed.

(** What [get_star_from_years] returns, in terms of the ordered table. *)
Lemma get_star_from_years_unfold (light_years : Q) (db_cursor : cursor) :
  get_star_from_years light_years db_cursor =
  Star_of_fetched
    (head (order_by (fun r => Qabs (target_parsecs light_years - col_distance r))
             (stars db_cursor))).
Proof. unfold get_star_from_years, fetchone, execute_nearest. simpl. by rewrite head_take_1. Qed.

(** C5. On a catalog without records [get_star_from_years] fails, whatever
    the target distance: [fetchone] returns [None], and the failure that the
    specification names NotFound is the [TypeError] that Python raises when
    [None] is unpacked for [Star]. *)
Theorem get_star_from_years_empty (light_years : Q) (db_cursor : cursor) :
  stars db_cursor = [] ->
  get_star_from_years light_years db_cursor = Raise TypeError.
Proof. intros Hempty. rewrite get_star_from_years_unfold, Hempty. reflexivity. Qed.

Lemma get_star_from_years_empty_witness :
  stars (mkcursor [] []) = [] /\
  get_star_from_years 33.5 (mkcursor [] []) = Raise TypeError.
Proof. split; [reflexivity|]. apply get_star_from_years_empty. reflexivity. Defined.

(** ** Elapsed years *)

Lemma years_since_date_days (now : datetime.datetime) (date : datetime.date) :
  (years_since_date now date ==
   inject_Z (datetime.toordinal (datetime.dt_date now) - datetime.toordinal date)
   / 365.25)%Q.
Proof.
  unfold years_since_date, datetime.total_seconds, datetime.date_sub; simpl.
  set (n := datetime.toordinal (datetime.dt_date now) - datetime.toordinal date).
  unfold Qdiv, Qmult, Qeq, Qinv, inject_Z; simpl.
  change datetime.US_PER_DAY with 86400000000. lia.
Qed.

(** C6 (as amended). [years_since_date] returns the time elapsed between
    [date] and the current date, that is the start of the day of the wall
    clock reading taken at the call, in Julian years of 31,557,600 seconds:
    the number of days between the two dates divided by 365.25.  It is
    negative exactly when [date] is after the current date. *)
Theorem years_since_date_elapsed (now : datetime.datetime) (date : datetime.date) :
  (years_since_date now date == elapsed_julian_years (start_of_day now) date)%Q /\
  (years_since_date now date ==
   inject_Z ((datetime.toordinal (datetime.dt_date now) - datetime.toordinal date)
             * 86400) / inject_Z SECS_IN_YEAR)%Q /\
  ((years_since_date now date < 0)%Q <->
   datetime.toordinal (datetime.dt_date now) < datetime.toordinal date).
Proof.
  split; [|split].
  - unfold years_since_date, elapsed_julian_years, start_of_day, datetime.instant,
      datetime.total_seconds, datetime.date_sub; simpl.
    rewrite Z.add_0_r, <- Z.mul_sub_distr_r. reflexivity.
  - rewrite years_since_date_days.
    unfold Qdiv, Qmult, Qeq, Qinv, inject_Z; simpl. lia.
  - rewrite years_since_date_days.
    set (n := datetime.toordinal (datetime.dt_date now) - datetime.toordinal date).
    assert ((inject_Z n / 365.25 < 0)%Q <-> n < 0) as ->; [|lia].
    unfold Qdiv, Qmult, Qlt, Qinv, inject_Z; simpl. lia.
Qed.

(** The time of day that [years_since_date] leaves out is less than one
    day of a Julian year. *)
Lemma years_since_date_within_a_day (now : datetime.datetime) (date : datetime.date) :
  datetime.valid_datetime now ->
  (years_since_date now date <= elapsed_julian_years now date)%Q /\
  (elapsed_julian_years now date < years_since_date now date + 1 / 365.25)%Q.
Proof.
  intros [_ Hus].
  unfold years_since_date, elapsed_julian_years, datetime.instant,
    datetime.total_seconds, datetime.date_sub; simpl.
  set (o := datetime.toordinal (datetime.dt_date now)) in *.
  set (e := datetime.toordinal date). set (u := datetime.dt_us now) in *.
  change datetime.US_PER_DAY with 86400000000 in *.
  unfold Qle, Qlt, Qdiv, Qmult, Qplus, Qinv, inject_Z; simpl. lia.
Qed.

(** C6 (as stated) fails: at noon the time elapsed since the start of the
    same day is half a day, and [years_since_date] returns 0. *)
Lemma years_since_date_ignores_time_of_day :
  (years_since_date noon_of_738886 (datetime.mkdate 738886) == 0)%Q /\
  (elapsed_julian_years noon_of_738886 (datetime.mkdate 738886) == 43200 / 31557600)%Q /\
  ~ (years_since_date noon_of_738886 (datetime.mkdate 738886)
     == elapsed_julian_years noon_of_738886 (datetime.mkdate 738886))%Q.
Proof. split; [|split]; by vm_compute. Qed.

(** ** Arrival of the light *)

Lemma round_half_even_floor (x : Q) :
  Qfloor x <= round_half_even x <= Qfloor x + 1.
Proof.
  unfold round_half_even.
  destruct (_ ?= _)%Q; [destruct (Z.even _)| |]; lia.
Qed.


Lemma round_half_even_le (n : Z) (x : Q) :
  (x <= inject_Z n)%Q -> round_half_even x <= n.
Proof.
  intros Hle. pose proof (Qfloor_le x) as Hfloor.
  assert (Qfloor x <= n) as Hfn.
  { rewrite Zle_Qle. by eapply Qle_trans. }
  unfold round_half_even.
  destruct (Qcompare_spec (x - inject_Z (Qfloor x)) (1 # 2)) as [Heq|Hlt|Hgt];
    [destruct (Z.even _)| |]; try lia.
  all: assert (inject_Z (Qfloor x) < x)%Q as Hstrict
    by (apply Qlt_minus_iff; (rewrite Heq || (eapply Qlt_trans; [|exact Hgt])); reflexivity).
  all: assert (Qfloor x < n) by (rewrite Zlt_Qlt; by eapply Qlt_le_trans); lia.
Qed.

Lemma instant_div (t : datetime.datetime) :
  datetime.valid_datetime t ->
  datetime.instant t / datetime.US_PER_DAY = datetime.toordinal (datetime.dt_date t).
Proof.
  intros [_ Hus]. unfold datetime.instant.
  rewrite Z.div_add_l by discriminate. rewrite Z.div_small by exact Hus. lia.
Qed.

Lemma when_will_light_hit_unfold now_1 now_2 self emit_date :
  datetime.valid_datetime now_2 ->
  when_will_light_hit now_1 now_2 self emit_date =
  if in_date_range (projected_arrival_date now_1 now_2 self emit_date)
  then Return (projected_arrival_date now_1 now_2 self emit_date)
  else Raise OverflowError.
Proof.
  intros [[Hlo Hhi] Hus].
  unfold when_will_light_hit, in_date_range, projected_arrival_date,
    projected_arrival, remaining_light_years, datetime.timedelta_days.
  set (us := round_half_even _).
  destruct (datetime.days_in_range us) eqn:Hdelta; simpl.
  - unfold datetime.datetime_add; simpl. destruct (_ && _); reflexivity.
  - destruct (_ && _) eqn:Hrange; [|reflexivity]. exfalso.
    apply andb_true_iff in Hrange as [H1 H2].
    unfold datetime.days_in_range, datetime.instant, datetime.MAX_DELTA_DAYS,
      datetime.MAXORDINAL in *.
    simpl in H1, H2. change datetime.US_PER_DAY with 86400000000 in *.
    clearbody us. apply Z.leb_le in H1, H2.
    apply andb_false_iff in Hdelta as [H|H]; apply Z.leb_gt in H;
      Z.div_mod_to_equations; lia.
Qed.

(** The microseconds still to travel: those of the distance less the whole
    days already travelled. *)
Lemma remaining_microseconds now_1 self emit_date :
  (remaining_light_years now_1 self emit_date * 365.25 * inject_Z datetime.US_PER_DAY
   == get_distance_in_lightyears self * 365.25 * inject_Z datetime.US_PER_DAY
      - inject_Z ((datetime.toordinal (datetime.dt_date now_1)
                   - datetime.toordinal emit_date) * datetime.US_PER_DAY))%Q.
Proof.
  unfold remaining_light_years. rewrite years_since_date_days, inject_Z_mult.
  field.
Qed.

(** * Further properties *)

(** ** The star that the catalog returns *)

(** What the call returns on a catalog with a record: the star of a record
    with a minimal key. *)
Lemma get_star_from_years_min (light_years : Q) (db_cursor : cursor) :
  stars db_cursor <> [] ->
  exists r,
    r ∈ stars db_cursor /\
    get_star_from_years light_years db_cursor = Return (Star_of_row r) /\
    forall r', r' ∈ stars db_cursor ->
      (Qabs (target_parsecs light_years - col_distance r)
       <= Qabs (target_parsecs light_years - col_distance r'))%Q.
Proof.
  intros Hne. rewrite get_star_from_years_unfold.
  destruct (head_order_by_is_Some
              (fun r => Qabs (target_parsecs light_years - col_distance r))
              (stars db_cursor) Hne) as [r Hr].
  destruct (head_order_by_min _ _ _ Hr) as [Hin Hmin].
  exists r. rewrite Hr. by repeat split.
Qed.

(** ** The constellation of a star *)

Lemma CONST_ABBREV_names_nonempty :
  Forall (fun kv : string * string => kv.2 <> "") CONST_ABBREV_items.
Proof. apply (bool_decide_unpack _). by vm_compute. Qed.

Lemma CONST_ABBREV_names_NoDup : NoDup (CONST_ABBREV_items.*2).
Proof. apply (bool_decide_unpack _). by vm_compute. Qed.

Lemma get_constellation_Return (self : Star) (name : string) :
  get_constellation self = Return name <->
  (_constellation self, name) ∈ CONST_ABBREV_items.
Proof.
  unfold get_constellation, dict_getitem. rewrite <- CONST_ABBREV_lookup.
  destruct (CONST_ABBREV !! _constellation self); split; congruence.
Qed.

(** X6. [get_constellation] never returns the empty string, which its
    docstring announces for a star without a record of its constellation:
    a name it returns is not empty, and the star then has a constellation
    recorded. *)
Theorem get_constellation_never_empty (self : Star) (name : string) :
  get_constellation self = Return name ->
  name <> "" /\ has_constellation self = true.
Proof.
  intros Hcall. split.
  - apply get_constellation_Return in Hcall.
    pose proof CONST_ABBREV_names_nonempty as Hall.
    rewrite Forall_forall in Hall. exact (Hall _ Hcall).
  - destruct (has_constellation self) eqn:Hhas; [done|].
    unfold has_constellation in Hhas.
    rewrite negb_false_iff, String.eqb_eq in Hhas.
    unfold get_constellation, dict_getitem in Hcall. rewrite Hhas in Hcall.
    by vm_compute in Hcall.
Qed.

Lemma get_constellation_never_empty_witness :
  get_constellation Betelgeuse = Return "Orion" /\
  "Orion" <> "" /\ has_constellation Betelgeuse = true.
Proof.
  assert (get_constellation Betelgeuse = Return "Orion") as Hcall by by vm_compute.
  split; [exact Hcall|].
  exact (get_constellation_never_empty Betelgeuse "Orion" Hcall).
Defined.

(** X7. The name returned tells the constellation code: two stars for
    which [get_constellation] returns the same name carry the same code. *)
Theorem get_constellation_name_tells_code (self other : Star) (name : string) :
  get_constellation self = Return name ->
  get_constellation other = Return name ->
  _constellation self = _constellation other.
Proof.
  rewrite !get_constellation_Return.
  intros [i Hi]%list_elem_of_lookup [j Hj]%list_elem_of_lookup.
  assert (i = j) as ->.
  { apply (NoDup_lookup _ i j name CONST_ABBREV_names_NoDup);
      rewrite list_lookup_fmap; [by rewrite Hi | by rewrite Hj]. }
  congruence.
Qed.

Lemma get_constellation_name_tells_code_witness :
  get_constellation Betelgeuse = Return "Orion" /\
  get_constellation (Star_of_row Rigel) = Return "Orion" /\
  _constellation Betelgeuse = _constellation (Star_of_row Rigel).
Proof.
  split; [by vm_compute|]. split; [by vm_compute|].
  apply (get_constellation_name_tells_code _ _ "Orion"); by vm_compute.
Defined.

(** ** The identifier of a star *)

(** X8. Stars built from records with different HIP numbers have different
    identifiers. *)
Theorem get_identifier_tells_hip_number (n m : Z) (id_1 id_2 : Z)
    (gl_1 gl_2 name_1 name_2 : string) (dist_1 dist_2 mag_1 mag_2 : Q)
    (color_1 color_2 : option Q) (con_1 con_2 : string) :
  get_identifier (__init__ id_1 (Number n) gl_1 name_1 dist_1 mag_1 color_1 con_1)
  = get_identifier (__init__ id_2 (Number m) gl_2 name_2 dist_2 mag_2 color_2 con_2) ->
  n = m.
Proof.
  unfold get_identifier, __init__; simpl. intros [= Heq].
  change ("" +:+ pretty n) with (pretty n) in Heq.
  change ("" +:+ pretty m) with (pretty m) in Heq.
  by apply (inj pretty) in Heq.
Qed.

Lemma get_identifier_tells_hip_number_witness :
  get_identifier (__init__ 1 (Number 27989) "" "Betelgeuse" 152.6718 0.45 None "Ori")
  = get_identifier (__init__ 2 (Number 27989) "Gl 1" "" 1 2 None "") /\
  27989 = 27989.
Proof.
  split; [reflexivity|].
  apply (get_identifier_tells_hip_number 27989 27989 1 2 "" "Gl 1" "Betelgeuse" ""
           152.6718 1 0.45 2 None None "Ori" "").
  reflexivity.
Defined.

(** X9. The identifier of a star built by [__init__] is empty only when
    the record has neither a HIP id nor a Gliese id. *)
Theorem get_identifier_empty (database_id : Z) (hip_id : cell)
    (gl_id proper_name : string) (distance magnitude : Q) (color : option Q)
    (constellation : string) :
  get_identifier
    (__init__ database_id hip_id gl_id proper_name distance magnitude color constellation)
  = "" <-> hip_id = Text "" /\ gl_id = "".
Proof.
  unfold get_identifier, __init__; simpl.
  destruct hip_id as [n | [|a s]]; simpl.
  - split; [discriminate | by intros [[=] _]].
  - split; [by intros -> | by intros [_ ->]].
  - split; [discriminate | by intros [[=] _]].
Qed.

(** ** Rounding to the microsecond *)

Lemma Qfloor_unique (x : Q) (f : Z) :
  (inject_Z f <= x)%Q -> (x < inject_Z (f + 1))%Q -> Qfloor x = f.
Proof.
  intros Hlo Hhi. pose proof (Qfloor_le x) as Hle. pose proof (Qlt_floor x) as Hlt.
  assert (f < Qfloor x + 1) by (rewrite Zlt_Qlt; by eapply Qle_lt_trans).
  assert (Qfloor x < f + 1) by (rewrite Zlt_Qlt; by eapply Qle_lt_trans).
  lia.
Qed.

Lemma Qfloor_shift (x : Q) (n : Z) : Qfloor (x + inject_Z n) = Qfloor x + n.
Proof.
  pose proof (Qfloor_le x) as Hle. pose proof (Qlt_floor x) as Hlt.
  apply Qfloor_unique.
  - rewrite inject_Z_plus. lra.
  - replace (Qfloor x + n + 1) with (Qfloor x + 1 + n) by lia.
    rewrite inject_Z_plus. lra.
Qed.

Lemma round_half_even_Qeq (x y : Q) :
  (x == y)%Q -> round_half_even x = round_half_even y.
Proof.
  intros Heq. unfold round_half_even. rewrite (Qfloor_comp _ _ Heq).
  assert ((x - inject_Z (Qfloor y) ?= 1 # 2) = (y - inject_Z (Qfloor y) ?= 1 # 2))%Q
    as -> by (apply Qcompare_comp; [lra | reflexivity]).
  reflexivity.
Qed.

(** Rounding commutes with a shift by an even number of units: the tie
    goes to the same neighbour. *)
Lemma round_half_even_shift (x : Q) (k : Z) :
  round_half_even (x + inject_Z (2 * k)) = round_half_even x + 2 * k.
Proof.
  unfold round_half_even. rewrite Qfloor_shift.
  assert ((x + inject_Z (2 * k) - inject_Z (Qfloor x + 2 * k) ?= 1 # 2)
          = (x - inject_Z (Qfloor x) ?= 1 # 2))%Q as ->
    by (apply Qcompare_comp; [rewrite inject_Z_plus; ring | reflexivity]).
  replace (Z.even (Qfloor x + 2 * k)) with (Z.even (Qfloor x))
    by (symmetry; apply Z.even_add_mul_2).
  destruct (_ ?= _)%Q; [destruct (Z.even _)| |]; lia.
Qed.

Lemma round_half_even_mono (x y : Q) :
  (x <= y)%Q -> round_half_even x <= round_half_even y.
Proof.
  intros Hle. pose proof (Qfloor_resp_le x y Hle) as Hfloor.
  pose proof (round_half_even_floor x) as Hx.
  pose proof (round_half_even_floor y) as Hy.
  destruct (Z.eq_dec (Qfloor x) (Qfloor y)) as [Heq|Hne]; [|lia].
  unfold round_half_even in *. rewrite <- Heq in *.
  destruct (Qcompare_spec (x - inject_Z (Qfloor x)) (1 # 2)) as [Hx2|Hx2|Hx2];
    destruct (Qcompare_spec (y - inject_Z (Qfloor x)) (1 # 2)) as [Hy2|Hy2|Hy2];
    try destruct (Z.even _); try lia; exfalso; lra.
Qed.

(** ** The arrival date, from the emit date *)

(** What [when_will_light_hit] adds to the second clock reading: the travel
    time of the light less the whole days since the emit date. *)
Lemma projected_arrival_decomposed now_1 now_2 self emit_date :
  projected_arrival now_1 now_2 self emit_date =
  (datetime.toordinal emit_date
   + (datetime.toordinal (datetime.dt_date now_2)
      - datetime.toordinal (datetime.dt_date now_1))) * datetime.US_PER_DAY
  + datetime.dt_us now_2 + travel_microseconds self.
Proof.
  unfold projected_arrival, travel_microseconds, datetime.instant.
  set (n := datetime.toordinal (datetime.dt_date now_1) - datetime.toordinal emit_date).
  rewrite (round_half_even_Qeq _
             (get_distance_in_lightyears self * 365.25 * inject_Z datetime.US_PER_DAY
              + inject_Z (2 * (- n * 43200000000)))).
  - rewrite round_half_even_shift. subst n.
    change datetime.US_PER_DAY with 86400000000. lia.
  - rewrite remaining_microseconds. fold n.
    replace (2 * (- n * 43200000000)) with (- (n * datetime.US_PER_DAY))
      by (change datetime.US_PER_DAY with 86400000000; lia).
    rewrite inject_Z_opp. ring.
Qed.

Lemma when_will_light_hit_Return now_1 now_2 self emit_date (d : datetime.date) :
  datetime.valid_datetime now_2 ->
  when_will_light_hit now_1 now_2 self emit_date = Return d ->
  d = projected_arrival_date now_1 now_2 self emit_date.
Proof.
  intros Hnow. rewrite (when_will_light_hit_unfold _ _ _ _ Hnow).
  destruct (in_date_range _); congruence.
Qed.





(** X14. The light of a farther star arrives no earlier: of two stars
    asked at the same clock readings for the same emit date, the one at
    the greater distance gets the later date, or the same. *)
Theorem when_will_light_hit_mono (now_1 now_2 : datetime.datetime)
    (nearer farther : Star) (emit_date d_1 d_2 : datetime.date) :
  datetime.valid_datetime now_2 ->
  (_distance nearer <= _distance farther)%Q ->
  when_will_light_hit now_1 now_2 nearer emit_date = Return d_1 ->
  when_will_light_hit now_1 now_2 farther emit_date = Return d_2 ->
  datetime.toordinal d_1 <= datetime.toordinal d_2.
Proof.
  intros Hnow Hdist Hcall_1 Hcall_2.
  rewrite (when_will_light_hit_Return _ _ _ _ _ Hnow Hcall_1).
  rewrite (when_will_light_hit_Return _ _ _ _ _ Hnow Hcall_2).
  unfold projected_arrival_date; simpl. rewrite !projected_arrival_decomposed.
  apply Z.div_le_mono; [reflexivity|].
  assert (travel_microseconds nearer <= travel_microseconds farther); [|lia].
  apply round_half_even_mono. unfold get_distance_in_lightyears.
  repeat (apply Qmult_le_compat_r; [|discriminate]). exact Hdist.
Qed.

Lemma when_will_light_hit_mono_witness :
  when_will_light_hit noon_of_738886 noon_of_738886 (Star_of_row star_at_2_parsecs)
    (datetime.mkdate 735234) = Return (datetime.mkdate 737617) /\
  when_will_light_hit noon_of_738886 noon_of_738886 (Star_of_row star_at_5_parsecs)
    (datetime.mkdate 735234) = Return (datetime.mkdate 741191) /\
  737617 <= 741191.
Proof.
  split; [by vm_compute|]. split; [by vm_compute|].
  apply (when_will_light_hit_mono noon_of_738886 noon_of_738886
           (Star_of_row star_at_2_parsecs) (Star_of_row star_at_5_parsecs)
           (datetime.mkdate 735234) (datetime.mkdate 737617) (datetime.mkdate 741191));
    by vm_compute.
Defined.

(** ** The command line *)

Lemma years_since_date_negative (now : datetime.datetime) (date : datetime.date) :
  Qltb (years_since_date now date) 0 =
  (datetime.toordinal (datetime.dt_date now) <? datetime.toordinal date).
Proof.
  apply eq_true_iff_eq. rewrite Qltb_lt, Z.ltb_lt, years_since_date_days.
  set (n := datetime.toordinal (datetime.dt_date now) - datetime.toordinal date).
  assert ((inject_Z n / 365.25 < 0)%Q <-> n < 0) as ->; [|lia].
  unfold Qdiv, Qmult, Qlt, Qinv, inject_Z; simpl. lia.
Qed.

(** The only exception of [when_will_light_hit] is that of the dates. *)
Lemma when_will_light_hit_Raise now_1 now_2 self emit_date (e : exn) :
  when_will_light_hit now_1 now_2 self emit_date = Raise e -> e = OverflowError.
Proof.
  unfold when_will_light_hit, datetime.timedelta_days, datetime.datetime_add.
  destruct (datetime.days_in_range _); simpl; [|congruence].
  destruct (_ && _); simpl; congruence.
Qed.

(** X15. On a database without stars [main] prints nothing and fails with
    the [TypeError] of [get_star_from_years], whatever the birthday. *)
Theorem main_empty_catalog (date_str : datetime.date -> string)
    (clock : nat -> datetime.datetime) (date_object : datetime.date) (c : cursor) :
  stars c = [] ->
  main_from_birthday date_str clock date_object c = ([], Some TypeError).
Proof.
  intros Hempty. unfold main_from_birthday.
  by rewrite get_star_from_years_unfold, Hempty.
Qed.

Lemma main_empty_catalog_witness :
  main_from_birthday (fun _ => "") (fun _ => noon_of_738886) (datetime.mkdate 735234)
    (mkcursor [] []) = ([], Some TypeError).
Proof. by apply main_empty_catalog. Defined.

(** X16. On a database with a star [main] always prints, as its first
    line, the identifier of the star that [get_star_from_years] returns for
    the years since the birthday; it then either prints a second line and
    ends, or fails with [OverflowError] and prints no more. *)
Theorem main_first_line (date_str : datetime.date -> string)
    (clock : nat -> datetime.datetime) (date_object : datetime.date) (c : cursor) :
  stars c <> [] ->
  exists star,
    get_star_from_years (years_since_date (clock 0%nat) date_object) c = Return star /\
    let first := "Your current birth star is " ++ get_identifier star ++ "." in
    (exists second, main_from_birthday date_str clock date_object c
                    = ([first; second], None)) \/
    main_from_birthday date_str clock date_object c = ([first], Some OverflowError).
Proof.
  intros Hne.
  destruct (get_star_from_years_min (years_since_date (clock 0%nat) date_object) c Hne)
    as (r & _ & Hcall & _).
  exists (Star_of_row r). split; [exact Hcall|].
  unfold main_from_birthday. rewrite Hcall. cbv zeta.
  destruct (when_will_light_hit (clock 1%nat) _ _ _) as [hit|e] eqn:Hhit.
  - destruct (when_will_light_hit (clock 4%nat) _ _ _) as [hit_again|e] eqn:Hagain.
    + left. eexists. reflexivity.
    + right. by rewrite (when_will_light_hit_Raise _ _ _ _ _ Hagain).
  - right. by rewrite (when_will_light_hit_Raise _ _ _ _ _ Hhit).
Qed.

Lemma main_first_line_witness :
  main_from_birthday (fun _ => "a date") (fun _ => noon_of_738886)
    (datetime.mkdate 735234) (mkcursor three_stars [])
  = (["Your current birth star is Gl 244.";
      "The light that left this star when you were born hit the earth on a date"],
     None).
Proof.
  destruct (main_first_line (fun _ => "a date") (fun _ => noon_of_738886)
              (datetime.mkdate 735234) (mkcursor three_stars []))
    as (star & Hstar & [[second Hmain] | Hmain]); [discriminate| |];
    rewrite Hmain; by vm_compute in Hmain |- *.
Defined.

(** X17. The tense of the second line: when both calls of
    [when_will_light_hit] return, [main] writes "will hit" exactly when the
    date that the first call returned is after the current date, and "hit"
    otherwise; the date it prints is the one that the second call
    returned. *)
Theorem main_tense (date_str : datetime.date -> string)
    (clock : nat -> datetime.datetime) (date_object : datetime.date) (c : cursor)
    (star : Star) (hit hit_again : datetime.date) :
  get_star_from_years (years_since_date (clock 0%nat) date_object) c = Return star ->
  when_will_light_hit (clock 1%nat) (clock 2%nat) star date_object = Return hit ->
  when_will_light_hit (clock 4%nat) (clock 5%nat) star date_object = Return hit_again ->
  main_from_birthday date_str clock date_object c =
  (["Your current birth star is " ++ get_identifier star ++ ".";
    "The light that left this star when you were born " ++
    (if datetime.toordinal (datetime.dt_date (clock 3%nat)) <? datetime.toordinal hit
     then "will " else "") ++
    "hit the earth on " ++ date_str hit_again], None).
Proof.
  intros Hstar Hhit Hagain. unfold main_from_birthday.
  by rewrite Hstar, Hhit, Hagain, years_since_date_negative.
Qed.

Lemma main_tense_witness :
  main_from_birthday (fun _ => "a date") (fun _ => noon_of_738886)
    (datetime.mkdate 738886) (mkcursor three_stars [])
  = (["Your current birth star is HIP 71683.";
      "The light that left this star when you were born will hit the earth on a date"],
     None).
Proof.
  rewrite (main_tense _ _ _ _ (Star_of_row star_at_1_parsec)
             (datetime.mkdate 740077) (datetime.mkdate 740077)); by vm_compute.
Defined.

(** * The functions over binary64 numbers *)

(** ** The order of the sort keys *)

Lemma lex_le_total (a b : Z * Z * Z) : lex_le a b \/ lex_le b a.
Proof. unfold lex_le. lia. Qed.

Lemma lex_le_trans (a b c : Z * Z * Z) : lex_le a b -> lex_le b c -> lex_le a c.
Proof. unfold lex_le. lia. Qed.

Lemma SFkey_le_rank (x y : spec_float) :
  SFkey_le x y = true <-> lex_le (SFrank x) (SFrank y).
Proof.
  unfold SFkey_le, SFleb, SFcompare, lex_le.
  destruct x as [[]|[]| |[] mx ex], y as [[]|[]| |[] my ey]; simpl;
    try (split; [intros _; lia | reflexivity]);
    try (split; [discriminate | lia]).
  - change (Pos.compare_cont Eq mx my) with (mx ?= my)%positive.
    destruct (Z.compare_spec ex ey); [destruct (Pos.compare_spec mx my)| |];
      simpl; split; (discriminate || lia || reflexivity).
  - change (Pos.compare_cont Eq mx my) with (mx ?= my)%positive.
    destruct (Z.compare_spec ex ey); [destruct (Pos.compare_spec mx my)| |];
      simpl; split; (discriminate || lia || reflexivity).
Qed.

Lemma is_nan_spec (a : float) : is_nan a = true <-> Prim2SF a = S754_nan.
Proof.
  unfold is_nan. rewrite FloatAxioms.eqb_spec, negb_true_iff. unfold SFeqb, SFcompare.
  destruct (Prim2SF a) as [[]|[]| |[] m e]; simpl;
    rewrite ?Z.compare_refl; try change (Pos.compare_cont Eq m m) with (m ?= m)%positive;
    rewrite ?Pos.compare_refl; simpl; split; congruence.
Qed.

Lemma key_le_spec (a b : float) :
  Binary64.key_le a b = SFkey_le (Prim2SF a) (Prim2SF b).
Proof.
  unfold Binary64.key_le, SFkey_le. rewrite FloatAxioms.leb_spec.
  destruct (is_nan a) eqn:Ha.
  - apply is_nan_spec in Ha. by rewrite Ha.
  - destruct (is_nan b) eqn:Hb.
    + apply is_nan_spec in Hb. rewrite Hb. simpl.
      destruct (Prim2SF a) eqn:Hsa; try reflexivity.
      apply is_nan_spec in Hsa. congruence.
    + simpl. destruct (Prim2SF a) eqn:Hsa, (Prim2SF b) eqn:Hsb; try reflexivity;
        try (apply is_nan_spec in Hsa; congruence);
        try (apply is_nan_spec in Hsb; congruence).
Qed.

Lemma key_le_total (a b : float) :
  Binary64.key_le a b = false -> Binary64.key_le b a = true.
Proof.
  rewrite !key_le_spec. intros Hab. apply SFkey_le_rank.
  destruct (lex_le_total (SFrank (Prim2SF a)) (SFrank (Prim2SF b))) as [H|H]; [|done].
  apply SFkey_le_rank in H. congruence.
Qed.

Lemma key_le_trans (a b c : float) :
  Binary64.key_le a b = true -> Binary64.key_le b c = true ->
  Binary64.key_le a c = true.
Proof.
  rewrite !key_le_spec, !SFkey_le_rank. apply lex_le_trans.
Qed.

Lemma key_le_refl (a : float) : Binary64.key_le a a = true.
Proof.
  destruct (Binary64.key_le a a) eqn:H; [done|].
  pose proof (key_le_total a a H). congruence.
Qed.

(** ** The nearest star *)

Section OrderByFacts64.
Variable key : Binary64.row -> float.

Lemma head_insert_by64 (r : Binary64.row) (sorted : list Binary64.row) :
  head (Binary64.insert_by key r sorted) =
  match head sorted with
  | None => Some r
  | Some x => if Binary64.key_le (key r) (key x) then Some r else Some x
  end.
Proof.
  destruct sorted as [|x rest]; simpl; [|destruct Binary64.key_le]; reflexivity.
Qed.

Lemma order_by64_nil_inv (rows : list Binary64.row) :
  head (Binary64.order_by key rows) = None -> rows = [].
Proof.
  destruct rows as [|r rows]; [done|]. simpl. rewrite head_insert_by64.
  destruct (head _); [destruct Binary64.key_le|]; discriminate.
Qed.

(** The first row of the ordered table is a row of the table, and its key
    is at or before the key of every row of the table. *)
Lemma head_order_by64_min (rows : list Binary64.row) (r : Binary64.row) :
  head (Binary64.order_by key rows) = Some r ->
  r ∈ rows /\ forall r', r' ∈ rows -> Binary64.key_le (key r) (key r') = true.
Proof.
  revert r. induction rows as [|x rows IH]; intros r; [discriminate|].
  simpl. rewrite head_insert_by64.
  destruct (head (Binary64.order_by key rows)) as [m|] eqn:Hm.
  - destruct (IH m eq_refl) as [Hin Hmin].
    destruct (Binary64.key_le (key x) (key m)) eqn:Hle; intros [= <-].
    + split; [apply list_elem_of_here|].
      intros r' [->|Hr']%elem_of_cons; [apply key_le_refl|].
      eapply key_le_trans; [exact Hle | by apply Hmin].
    + split; [by apply list_elem_of_further|].
      intros r' [->|Hr']%elem_of_cons; [by apply key_le_total | by apply Hmin].
  - apply order_by64_nil_inv in Hm as ->. intros [= <-].
    split; [apply list_elem_of_here|].
    intros r' [->|Hr']%elem_of_cons; [apply key_le_refl|].
    by apply elem_of_nil in Hr'.
Qed.

Lemma head_order_by64_is_Some (rows : list Binary64.row) :
  rows <> [] -> exists r, head (Binary64.order_by key rows) = Some r.
Proof.
  intros Hne.
  destruct (head (Binary64.order_by key rows)) as [r|] eqn:Hr; [by exists r|].
  by apply order_by64_nil_inv in Hr.
Qed.

(** A row whose key is strictly before the key of every other row comes
    first. *)
Lemma head_order_by64_unique (rows : list Binary64.row) (r : Binary64.row) :
  r ∈ rows ->
  (forall r', r' ∈ rows -> r' = r \/ Binary64.key_le (key r') (key r) = false) ->
  head (Binary64.order_by key rows) = Some r.
Proof.
  intros Hin Hstrict.
  destruct (head_order_by64_is_Some rows) as [m Hm].
  { intros ->. by apply elem_of_nil in Hin. }
  destruct (head_order_by64_min rows m Hm) as [Hmin Hle].
  destruct (Hstrict m Hmin) as [->|Hlt]; [done|].
  rewrite (Hle r Hin) in Hlt. discriminate.
Qed.
End OrderByFacts64.

Lemma get_star_from_years64_unfold (light_years : float) (db_cursor : Binary64.cursor) :
  Binary64.get_star_from_years light_years db_cursor =
  Binary64.Star_of_fetched
    (head (Binary64.order_by
             (Binary64.nearest_key (light_years / Binary64.LIGHT_YEARS_IN_1_PARSEC))
             (Binary64.stars db_cursor))).
Proof.
  unfold Binary64.get_star_from_years, Binary64.fetchone, Binary64.execute_nearest.
  simpl. by rewrite head_take_1.
Qed.

(** C1 (as amended). On a catalog with at least one record
    [get_star_from_years] returns the star built from a record of the
    catalog, field by field, for which the absolute difference between
    [light_years / 3.26163344] and the recorded distance, all three computed
    in binary64, is at or before that of every record of the catalog.  For a
    catalog of three records at 1, 2 and 5 parsecs, in any storage order, and
    a target of [2 * 3.26163344] light years, it is the record at 2
    parsecs. *)
Theorem get_star_from_years_nearest (light_years : float)
    (db_cursor : Binary64.cursor) :
  Binary64.stars db_cursor <> [] ->
  (exists r,
      r ∈ Binary64.stars db_cursor /\
      Binary64.get_star_from_years light_years db_cursor =
      Return
        (Binary64.mkStar (Binary64.col_database_id r) (Binary64.col_gl_id r)
           (Binary64.col_distance r) (Binary64.col_proper_name r)
           (Binary64.col_magnitude r) (Binary64.col_color r)
           (Binary64.col_constellation r)
           (if cell_nonempty (Binary64.col_hip_id r)
            then "HIP " ++ str (Binary64.col_hip_id r) else "")) /\
      forall r', r' ∈ Binary64.stars db_cursor ->
        Binary64.key_le
          (abs (light_years / 3.26163344 - Binary64.col_distance r))
          (abs (light_years / 3.26163344 - Binary64.col_distance r')) = true) /\
  (forall a b c,
      Binary64.col_distance a = 1.0%float ->
      Binary64.col_distance b = 2.0%float ->
      Binary64.col_distance c = 5.0%float ->
      Binary64.stars db_cursor ≡ₚ [a; b; c] ->
      light_years = (2.0 * 3.26163344)%float ->
      Binary64.get_star_from_years light_years db_cursor =
      Return
        (Binary64.mkStar (Binary64.col_database_id b) (Binary64.col_gl_id b)
           2.0 (Binary64.col_proper_name b)
           (Binary64.col_magnitude b) (Binary64.col_color b)
           (Binary64.col_constellation b)
           (if cell_nonempty (Binary64.col_hip_id b)
            then "HIP " ++ str (Binary64.col_hip_id b) else ""))).
Proof.
  intros Hne. rewrite get_star_from_years64_unfold. split.
  - destruct (head_order_by64_is_Some
                (Binary64.nearest_key (light_years / Binary64.LIGHT_YEARS_IN_1_PARSEC))
                (Binary64.stars db_cursor) Hne) as [r Hr].
    destruct (head_order_by64_min _ _ _ Hr) as [Hin Hmin].
    exists r. rewrite Hr. repeat split; [done|]. exact Hmin.
  - intros a b c Ha Hb Hc Hperm ->. rewrite <- Hb.
    rewrite (head_order_by64_unique _ _ b); [done| |].
    + rewrite Hperm. apply list_elem_of_further, list_elem_of_here.
    + intros r'. rewrite Hperm, !elem_of_cons, elem_of_nil.
      unfold Binary64.nearest_key.
      intros [->|[->|[->|[]]]]; [right|by left|right];
        rewrite Hb, ?Ha, ?Hc; by vm_compute.
Qed.

Lemma get_star_from_years_nearest_witness :
  Binary64.stars
    (Binary64.mkcursor [row_at_5_parsecs; row_at_1_parsec; row_at_2_parsecs] []) <> [] /\
  Binary64.get_star_from_years (2.0 * 3.26163344)
    (Binary64.mkcursor [row_at_5_parsecs; row_at_1_parsec; row_at_2_parsecs] [])
  = Return (Binary64.mkStar 2 "Gl 244" 2.0 "" 8.44 None "" "").
Proof.
  split; [discriminate|].
  destruct (get_star_from_years_nearest (2.0 * 3.26163344)
              (Binary64.mkcursor [row_at_5_parsecs; row_at_1_parsec; row_at_2_parsecs] []))
    as [_ Hthree]; [discriminate|].
  apply (Hthree row_at_1_parsec row_at_2_parsecs row_at_5_parsecs); try reflexivity.
  simpl. apply (Permutation_cons_append [row_at_1_parsec; row_at_2_parsecs]).
Defined.

(** C1 (as stated) fails: at a target of a million light years the
    differences to 24 parsecs and to the next binary64 number after 24 are
    rounded to the same number, and the record returned, the first of the
    two in the table, is not the one whose distance is nearest to the
    target. *)
Lemma get_star_from_years_not_the_nearest :
  let p := (1000000 / Binary64.LIGHT_YEARS_IN_1_PARSEC)%float in
  Binary64.get_star_from_years 1000000
    (Binary64.mkcursor [row_at_24_parsecs; row_just_past_24_parsecs] [])
  = Return (built_from row_at_24_parsecs) /\
  (Qabs (value p - value (Binary64.col_distance row_just_past_24_parsecs))
   < Qabs (value p - value (Binary64.col_distance row_at_24_parsecs)))%Q /\
  abs (p - Binary64.col_distance row_just_past_24_parsecs)
  = abs (p - Binary64.col_distance row_at_24_parsecs).
Proof. cbv zeta. split; [|split]; by vm_compute. Qed.

(** ** The sign of a rounded number *)

Lemma binary_round_aux_nonpos (m e : Z) (l : location) :
  SFnonpos (binary_round_aux prec emax true m e l).
Proof.
  unfold binary_round_aux.
  destruct (shr_fexp prec emax m e l) as [mrs' e'].
  destruct (shr_fexp prec emax _ e' loc_Exact) as [mrs'' e''].
  destruct (shr_m mrs''); [done| |done].
  by destruct (e'' <=? emax - prec).
Qed.

Lemma binary_normalize_nonpos (n e : Z) :
  n <= 0 -> SFnonpos (binary_normalize prec emax n e true).
Proof.
  intros Hn. destruct n as [|p|p]; simpl; [done|lia|].
  unfold binary_round. destruct (shl_align _ _ _). apply binary_round_aux_nonpos.
Qed.

Lemma SF64mul_nonpos (x y : spec_float) :
  SFpos x -> SFnonpos y -> SFnonpos (SF64mul x y).
Proof.
  destruct x as [[]|[]| |[] mx ex], y as [[]|[]| |[] my ey]; simpl; try done.
  intros _ _. apply binary_round_aux_nonpos.
Qed.

Lemma SF2Q_nonpos (x : spec_float) : SFnonpos x -> (Binary64.SF2Q x <= 0)%Q.
Proof.
  destruct x as [s|s| |[] m e]; simpl; try done; try (intros _; apply Qle_refl).
  intros _.
  assert (0 <= Qpower 2 e)%Q as Hpow by (apply Qpower_0_le; discriminate).
  assert (inject_Z (Z.neg m) <= 0)%Q as Hneg by (unfold Qle; simpl; lia).
  change (cond_Zopp true (Z.pos m)) with (Z.neg m).
  generalize dependent (Qpower 2 e). generalize dependent (inject_Z (Z.neg m)).
  intros a Ha b Hb.
  apply Qle_trans with (0 * b)%Q; [by apply Qmult_le_compat_r|].
  rewrite Qmult_0_l. apply Qle_refl.
Qed.

Lemma modf_nonpos (x : spec_float) :
  SFnonpos x ->
  (Binary64.modf x).1 <= 0 /\ SFnonpos (Binary64.modf x).2.
Proof.
  destruct x as [s|s| |[] m e]; simpl; try done; intros H; try (split; [lia|done]).
  destruct (0 <=? e) eqn:He; simpl.
  - split; [|done]. apply Z.leb_le in He.
    assert (0 <= 2 ^ e) by (by apply Z.pow_nonneg). lia.
  - apply Z.leb_gt in He.
    assert (0 < 2 ^ (- e)) as Hpos by (apply Z.pow_pos_nonneg; lia).
    split.
    + assert (0 <= Z.pos m / 2 ^ (- e)) by (apply Z.div_pos; lia). lia.
    + apply binary_normalize_nonpos.
      assert (0 <= Z.pos m mod 2 ^ (- e)) by (by apply Z.mod_pos_bound). lia.
Qed.

Lemma round_half_away_nonpos (x : Q) : (x < 1 # 2)%Q -> Binary64.round_half_away x <= 0.
Proof.
  intros Hx. unfold Binary64.round_half_away.
  destruct (Qle_bool 0 x) eqn:Hsign.
  - assert (Qfloor (x + (1 # 2)) < 1); [|lia].
    rewrite Zlt_Qlt. eapply Qle_lt_trans; [apply Qfloor_le|].
    change (inject_Z 1) with 1%Q. lra.
  - assert (0 <= Qfloor (- x + (1 # 2))); [|lia].
    change 0 with (Qfloor 0). apply Qfloor_resp_le.
    assert (~ (0 <= x)%Q) by (rewrite <- Qle_bool_iff; congruence). lra.
Qed.

(** For a number of days that is not positive, [timedelta] has no positive
    number of microseconds. *)
Lemma timedelta_microseconds_nonpos (d : float) (us : Z) :
  SFnonpos (Prim2SF d) ->
  Binary64.timedelta_microseconds d = Return us -> us <= 0.
Proof.
  unfold Binary64.timedelta_microseconds. intros Hd.
  destruct (Prim2SF d) as [s|s| |s m e] eqn:Hsd; try discriminate.
  - simpl. intros [= <-]. done.
  - pose proof (modf_nonpos _ Hd) as [Hint Hfrac].
    destruct (Binary64.modf (S754_finite s m e)) as [intpart fracpart].
    cbn [fst snd] in Hint, Hfrac.
    assert (intpart * datetime.US_PER_DAY <= 0) as Hsum
      by (change datetime.US_PER_DAY with 86400000000; lia).
    set (sum := intpart * datetime.US_PER_DAY) in *. clearbody sum.
    destruct (SFeqb fracpart (S754_zero false)); [by intros [= <-]|].
    assert (SFnonpos (SF64mul (Prim2SF (Binary64.float_of_int datetime.US_PER_DAY))
                        fracpart)) as Hprod.
    { apply SF64mul_nonpos; [by vm_compute | exact Hfrac]. }
    pose proof (modf_nonpos _ Hprod) as [Hint2 Hfrac2].
    destruct (Binary64.modf (SF64mul _ fracpart)) as [intpart2 fracpart2].
    cbn [fst snd] in Hint2, Hfrac2.
    pose proof (SF2Q_nonpos _ Hfrac2) as Hleft.
    set (leftover_us := Binary64.SF2Q fracpart2) in *. clearbody leftover_us.
    destruct (Qeq_bool leftover_us 0) eqn:Hzero; [intros [= <-]; lia|].
    assert (~ (leftover_us == 0)%Q) as Hne
      by (rewrite <- Qeq_bool_iff; congruence).
    assert (Binary64.round_half_away leftover_us <= 0) as Hwhole
      by (apply round_half_away_nonpos; lra).
    destruct (Qeq_bool _ (1 # 2)); intros [= <-]; [|lia].
    destruct (Z.odd _).
    + assert (Binary64.round_half_away ((leftover_us + inject_Z 1) * (1 # 2)) <= 0);
        [|lia].
      apply round_half_away_nonpos. change (inject_Z 1) with 1%Q. lra.
    + assert (Binary64.round_half_away ((leftover_us + inject_Z 0) * (1 # 2)) <= 0);
        [|lia].
      apply round_half_away_nonpos. change (inject_Z 0) with 0%Q. lra.
Qed.

Lemma SF64mul_nonpos_l (x y : spec_float) :
  SFnonpos x -> SFpos y -> SFnonpos (SF64mul x y).
Proof.
  destruct x as [[]|[]| |[] mx ex], y as [[]|[]| |[] my ey]; simpl; try done.
  intros _ _. apply binary_round_aux_nonpos.
Qed.

Lemma ltb_0_nonpos (x : float) : (x <? 0)%float = true -> SFnonpos (Prim2SF x).
Proof.
  rewrite FloatAxioms.ltb_spec.
  replace (Prim2SF 0) with (S754_zero false) by (by vm_compute).
  by destruct (Prim2SF x) as [[]|[]| |[] m e].
Qed.

(** ** Arrival of the light *)

(** The microseconds that [when_will_light_hit] adds to the clock. *)
Lemma when_will_light_hit64_unfold now_1 now_2 self emit_date (us : Z) :
  datetime.valid_datetime now_2 ->
  Binary64.timedelta_microseconds
    ((Binary64.get_distance_in_lightyears self
      - Binary64.years_since_date now_1 emit_date) * 365.25)%float = Return us ->
  Binary64.when_will_light_hit now_1 now_2 self emit_date =
  if in_date_range (datetime.mkdate ((datetime.instant now_2 + us) / datetime.US_PER_DAY))
  then Return (datetime.mkdate ((datetime.instant now_2 + us) / datetime.US_PER_DAY))
  else Raise OverflowError.
Proof.
  intros [[Hlo Hhi] Hus] Hdays.
  unfold Binary64.when_will_light_hit, Binary64.timedelta_days, in_date_range.
  rewrite Hdays. simpl.
  destruct (datetime.days_in_range us) eqn:Hdelta; simpl.
  - unfold datetime.datetime_add; simpl. destruct (_ && _); reflexivity.
  - destruct (_ && _) eqn:Hrange; [|reflexivity]. exfalso.
    apply andb_true_iff in Hrange as [H1 H2].
    unfold datetime.days_in_range, datetime.instant, datetime.MAX_DELTA_DAYS,
      datetime.MAXORDINAL, datetime.valid_date in *.
    change datetime.US_PER_DAY with 86400000000 in *.
    apply Z.leb_le in H1, H2.
    apply andb_false_iff in Hdelta as [H|H]; apply Z.leb_gt in H;
      Z.div_mod_to_equations; lia.
Qed.

Lemma timedelta_microseconds_Raise (d : float) (e : exn) :
  Binary64.timedelta_microseconds d = Raise e -> e = OverflowError \/ e = ValueError.
Proof.
  unfold Binary64.timedelta_microseconds.
  destruct (Prim2SF d) as [s|s| |s m ex];
    try (intros [= <-]; by auto);
    destruct (Binary64.modf _) as [intpart fracpart];
    (destruct (SFeqb fracpart _); [discriminate|]);
    destruct (Binary64.modf _) as [intpart2 fracpart2];
    (destruct (Qeq_bool _ 0); [discriminate|]);
    destruct (Qeq_bool _ (1 # 2)); discriminate.
Qed.

(** C2 (as amended). All arithmetic in binary64, for a valid clock reading
    [now_2]: the remaining light years are the distance in light years less
    [years_since_date] of the emit date, the day count is 365.25 times that,
    and [timedelta] makes it a whole number of microseconds.  When that
    succeeds, [when_will_light_hit] returns the date of the clock reading
    plus these microseconds if it lies in the years 1 to 9999, and raises
    [OverflowError] if it does not; when it fails, for a day count too large
    or not a number, the call fails the same way.  When the remaining light
    years are negative, a date that the call returns is the current date or
    an earlier one. *)
Theorem when_will_light_hit_arrival (now_1 now_2 : datetime.datetime)
    (self : Binary64.Star) (emit_date : datetime.date) :
  datetime.valid_datetime now_2 ->
  let remaining :=
    (Binary64.get_distance_in_lightyears self
     - Binary64.years_since_date now_1 emit_date)%float in
  let days := (remaining * 365.25)%float in
  (forall us, Binary64.timedelta_microseconds days = Return us ->
     let arrival :=
       datetime.mkdate ((datetime.instant now_2 + us) / datetime.US_PER_DAY) in
     (in_date_range arrival = true ->
      Binary64.when_will_light_hit now_1 now_2 self emit_date = Return arrival) /\
     (in_date_range arrival = false ->
      Binary64.when_will_light_hit now_1 now_2 self emit_date = Raise OverflowError)) /\
  (forall e, Binary64.timedelta_microseconds days = Raise e ->
     Binary64.when_will_light_hit now_1 now_2 self emit_date = Raise e /\
     (e = OverflowError \/ e = ValueError)) /\
  ((remaining <? 0)%float = true ->
   forall d, Binary64.when_will_light_hit now_1 now_2 self emit_date = Return d ->
     datetime.toordinal d <= datetime.toordinal (datetime.dt_date now_2)).
Proof.
  intros Hnow remaining days. split; [|split].
  - intros us Hdays arrival.
    pose proof (when_will_light_hit64_unfold now_1 now_2 self emit_date us Hnow Hdays)
      as Hcall.
    fold arrival in Hcall. split; intros Hrange; by rewrite Hcall, Hrange.
  - intros e Hdays. split; [|by apply (timedelta_microseconds_Raise days)].
    unfold Binary64.when_will_light_hit, Binary64.timedelta_days.
    fold remaining. fold days. by rewrite Hdays.
  - intros Hneg d Hcall.
    destruct (Binary64.timedelta_microseconds days) as [us|e] eqn:Hdays.
    + rewrite (when_will_light_hit64_unfold _ _ _ _ us Hnow Hdays) in Hcall.
      destruct (in_date_range _); [|discriminate]. injection Hcall as <-. simpl.
      assert (us <= 0) as Hus.
      { apply (timedelta_microseconds_nonpos days us); [|exact Hdays].
        unfold days. rewrite mul_spec.
        apply SF64mul_nonpos_l; [by apply ltb_0_nonpos | by vm_compute]. }
      rewrite <- (instant_div now_2 Hnow). apply Z.div_le_mono; [reflexivity|lia].
    + unfold Binary64.when_will_light_hit, Binary64.timedelta_days in Hcall.
      fold remaining in Hcall. fold days in Hcall. by rewrite Hdays in Hcall.
Qed.

Lemma when_will_light_hit_arrival_witness :
  datetime.valid_datetime morning_of_738886 /\
  Binary64.timedelta_microseconds
    ((Binary64.get_distance_in_lightyears Betelgeuse64
      - Binary64.years_since_date morning_of_738886 (datetime.mkdate 738886))
     * 365.25)%float = Return 15714405083305007 /\
  Binary64.when_will_light_hit morning_of_738886 morning_of_738886 Betelgeuse64
    (datetime.mkdate 738886) = Return (datetime.mkdate 920765) /\
  ((Binary64.get_distance_in_lightyears (Binary64.Star_of_row row_at_2_parsecs)
    - Binary64.years_since_date noon_of_738886 (datetime.mkdate 735234) <? 0)%float
   = true /\
   Binary64.when_will_light_hit noon_of_738886 noon_of_738886
     (Binary64.Star_of_row row_at_2_parsecs) (datetime.mkdate 735234)
   = Return (datetime.mkdate 737617) /\
   737617 <= datetime.toordinal (datetime.dt_date noon_of_738886)).
Proof.
  assert (datetime.valid_datetime morning_of_738886) as Hmorning by by vm_compute.
  assert (datetime.valid_datetime noon_of_738886) as Hnoon by by vm_compute.
  split; [exact Hmorning|]. split; [by vm_compute|]. split.
  - destruct (when_will_light_hit_arrival morning_of_738886 morning_of_738886
                Betelgeuse64 (datetime.mkdate 738886) Hmorning) as (Hreturn & _ & _).
    destruct (Hreturn 15714405083305007) as [-> _]; by vm_compute.
  - split; [by vm_compute|]. split; [by vm_compute|].
    destruct (when_will_light_hit_arrival noon_of_738886 noon_of_738886
                (Binary64.Star_of_row row_at_2_parsecs) (datetime.mkdate 735234) Hnoon)
      as (_ & _ & Hpast).
    apply (Hpast eq_refl (datetime.mkdate 737617)). by vm_compute.
Defined.

(** C2 (as stated) fails: for a star 100000 parsecs away the day count is
    a number that [timedelta] can hold, the date it leads to lies beyond the
    year 9999, and the call raises [OverflowError] where the claim has it
    return that date. *)
Lemma when_will_light_hit_out_of_range :
  Binary64.timedelta_microseconds
    ((Binary64.get_distance_in_lightyears far_star
      - Binary64.years_since_date noon_of_738886 (datetime.mkdate 738886))
     * 365.25)%float = Return 10292932344614401102 /\
  (datetime.instant noon_of_738886 + 10292932344614401102) / datetime.US_PER_DAY
  = 119870047 /\
  Binary64.when_will_light_hit noon_of_738886 noon_of_738886 far_star
    (datetime.mkdate 738886) = Raise OverflowError /\
  Binary64.when_will_light_hit noon_of_738886 noon_of_738886 far_star
    (datetime.mkdate 738886) <> Return (datetime.mkdate 119870047).
Proof. repeat split; by vm_compute. Qed.

(** * Further properties of the binary64 functions *)

(** X5. A record whose sort key, the absolute difference to the target as
    binary64 arithmetic computes it, is strictly before the key of every
    other record is the one [get_star_from_years] returns, in whatever order
    the table stores its records. *)
Theorem get_star_from_years_strictly_nearest (light_years : float)
    (db_cursor db_cursor' : Binary64.cursor) (r : Binary64.row) :
  r ∈ Binary64.stars db_cursor ->
  (forall r', r' ∈ Binary64.stars db_cursor ->
     r' = r \/
     Binary64.key_le
       (abs (light_years / 3.26163344 - Binary64.col_distance r'))
       (abs (light_years / 3.26163344 - Binary64.col_distance r)) = false) ->
  Binary64.stars db_cursor' ≡ₚ Binary64.stars db_cursor ->
  Binary64.get_star_from_years light_years db_cursor = Return (built_from r) /\
  Binary64.get_star_from_years light_years db_cursor' = Return (built_from r).
Proof.
  intros Hin Hstrict Hperm. rewrite !get_star_from_years64_unfold.
  set (key := Binary64.nearest_key (light_years / Binary64.LIGHT_YEARS_IN_1_PARSEC)).
  rewrite (head_order_by64_unique key (Binary64.stars db_cursor) r Hin Hstrict).
  rewrite (head_order_by64_unique key (Binary64.stars db_cursor') r); [done| |].
  - by rewrite Hperm.
  - intros r' Hr'. apply Hstrict. by rewrite <- Hperm.
Qed.

Lemma get_star_from_years_strictly_nearest_witness :
  Binary64.get_star_from_years 16
    (Binary64.mkcursor [row_at_1_parsec; row_at_2_parsecs; row_at_5_parsecs] [])
  = Return (built_from row_at_5_parsecs) /\
  Binary64.get_star_from_years 16
    (Binary64.mkcursor [row_at_5_parsecs; row_at_2_parsecs; row_at_1_parsec] [])
  = Return (built_from row_at_5_parsecs).
Proof.
  apply (get_star_from_years_strictly_nearest 16
           (Binary64.mkcursor [row_at_1_parsec; row_at_2_parsecs; row_at_5_parsecs] [])
           (Binary64.mkcursor [row_at_5_parsecs; row_at_2_parsecs; row_at_1_parsec] [])
           row_at_5_parsecs).
  - do 2 apply list_elem_of_further. apply list_elem_of_here.
  - intros r'. simpl. rewrite !elem_of_cons, elem_of_nil.
    intros [->|[->|[->|[]]]]; [right|right|left]; by vm_compute.
  - simpl. symmetry.
    apply (Permutation_rev [row_at_1_parsec; row_at_2_parsecs; row_at_5_parsecs]).
Defined.
